(** * The Option class of src/option.ts

    The class wraps one private field, [value?: T], and decides between
    "Some" and "None" by comparing that field with [undefined].  TypeScript
    types are erased when the program runs, so the field holds a plain
    JavaScript value; the development below keeps that representation: an
    [Option.t] is a record with one [JsValue], and the element type [T] only
    shows up as the set of values a caller may pass.

    Caller-supplied functions ([fn], [someFn], [noneFn]) may change the
    world and may throw.  They are computations in a small state-and-exception
    monad [Eff], and the methods that call them are written in that monad.
    Methods that neither call a function nor contain a [throw] statement are
    plain functions. *)

From Stdlib Require Import Bool ZArith String List.
Import ListNotations.
Local Open Scope string_scope.
#[local] Set Warnings "-register-all".

(** ** Values at run time *)

(** The values an [Option] may be asked to hold.  Numbers are kept as
    integers: the class never computes with them, it only stores them and
    hands them back.  [JsError m] is the object built by [new Error(m)]. *)
Inductive JsValue : Type :=
| JsUndefined
| JsNull
| JsBoolean (b : bool)
| JsNumber (n : Z)
| JsString (s : string)
| JsArray (items : list JsValue)
| JsError (message : string).

(** [v === undefined]; [v !== undefined] is its negation. *)
Definition is_undefined (v : JsValue) : bool :=
  match v with
  | JsUndefined => true
  | _ => false
  end.

(** ** Effects: state passing with exceptions *)

(** How a call ends: it returns a result, or it throws a value. *)
Inductive Completion (A : Type) : Type :=
| Normal (a : A)
| Throw (e : JsValue).

Arguments Normal {A} a.
Arguments Throw {A} e.

(** A computation reads the world [W] and leaves a completion and a world. *)
Definition Eff (W A : Type) : Type := W -> Completion A * W.

Definition ret {W A : Type} (a : A) : Eff W A :=
  fun w => (Normal a, w).

Definition throw {W A : Type} (e : JsValue) : Eff W A :=
  fun w => (Throw e, w).

Definition bind {W A B : Type} (c : Eff W A) (k : A -> Eff W B) : Eff W B :=
  fun w =>
    match c w with
    | (Normal a, w') => k a w'
    | (Throw e, w') => (Throw e, w')
    end.

Notation "x <- c ;; k" := (bind c (fun x => k))
  (at level 61, c at next level, right associativity).

(** [completes c w]: run from [w], the computation [c] returns normally. *)
Definition completes {W A : Type} (c : Eff W A) (w : W) : bool :=
  match fst (c w) with
  | Normal _ => true
  | Throw _ => false
  end.

(** A caller function is total when it returns normally from every world. *)
Definition total {W A : Type} (c : Eff W A) : Prop :=
  forall w, completes c w = true.

(** ** Spies: who was called, and with what *)

Record Call : Type := call { callee : string; arguments : list JsValue }.

(** A world that also carries the list of calls made so far. *)
Definition Spied (W : Type) : Type := (list Call * W)%type.

(** A no-argument function that records each of its invocations. *)
Definition spy {W A : Type} (name : string) (fn : Eff W A) : Eff (Spied W) A :=
  fun s =>
    let (r, w') := fn (snd s) in
    (r, ((fst s ++ [call name []])%list, w')).

(** The same for a one-argument function; the argument is recorded too. *)
Definition spy1 {W A : Type} (name : string) (fn : JsValue -> Eff W A)
  : JsValue -> Eff (Spied W) A :=
  fun v s =>
    let (r, w') := fn v (snd s) in
    (r, ((fst s ++ [call name [v]])%list, w')).

(** The calls a computation makes when started with an empty record. *)
Definition calls {W A : Type} (c : Eff (Spied W) A) (w : W) : list Call :=
  fst (snd (c ([], w))).

(** ** The class *)

Module Option.

(** [class Option<T> { private constructor(private value?: T) {} }] *)
Record t : Type := new { value : JsValue }.

(** [static Some<T>(value: T) { return new Option(value); }] *)
Definition Some (value : JsValue) : t := new value.

(** [static None<T>() { return new Option<T>(undefined); }] *)
Definition None : t := new JsUndefined.

(** [isSome() { return this.value !== undefined; }] *)
Definition isSome (this : t) : bool := negb (is_undefined (value this)).

(** [isNone() { return this.value === undefined; }] *)
Definition isNone (this : t) : bool := is_undefined (value this).

(** [unwrap()]: throws when [this.isNone()], else returns the field. *)
Definition unwrap {W : Type} (this : t) : Eff W JsValue :=
  if isNone this
  then throw (JsError "Tried to unwrap an Option that is None")
  else ret (value this).

(** [unwrapOr(defaultValue) { return this.isSome() ? this.value : defaultValue; }] *)
Definition unwrapOr (this : t) (defaultValue : JsValue) : JsValue :=
  if isSome this then value this else defaultValue.

(** [unwrapOrElse(fn) { return this.isSome() ? this.value : fn(); }] *)
Definition unwrapOrElse {W : Type} (this : t) (fn : Eff W JsValue)
  : Eff W JsValue :=
  if isSome this then ret (value this) else fn.

(** [map(fn)]: [Option.Some(fn(this.value))] when [this.isSome()],
    else [Option.None()]. *)
Definition map {W : Type} (this : t) (fn : JsValue -> Eff W JsValue)
  : Eff W t :=
  if isSome this
  then u <- fn (value this) ;; ret (Some u)
  else ret None.

(** [orElse(fn) { return this.isSome() ? this : fn(); }] *)
Definition orElse {W : Type} (this : t) (fn : Eff W t) : Eff W t :=
  if isSome this then ret this else fn.

(** [match(someFn, noneFn) { return this.isSome() ? someFn(this.value) : noneFn(); }] *)
Definition match_ {W U : Type} (this : t)
  (someFn : JsValue -> Eff W U) (noneFn : Eff W U) : Eff W U :=
  if isSome this then someFn (value this) else noneFn.

End Option.

(** Containers a caller can get hold of: the constructor is private, so
    they come from [Some], [None], and from [map] and [orElse] applied to
    containers obtained the same way ([orElse]'s function being caller code
    that itself can only return such containers). *)
Inductive reachable {W : Type} : Option.t -> Prop :=
| reach_Some (v : JsValue) : reachable (Option.Some v)
| reach_None : reachable Option.None
| reach_map (this : Option.t) (fn : JsValue -> Eff W JsValue)
    (w w' : W) (o : Option.t) :
    reachable this ->
    Option.map this fn w = (Normal o, w') ->
    reachable o
| reach_orElse (this : Option.t) (fn : Eff W Option.t)
    (w w' : W) (o : Option.t) :
    reachable this ->
    (forall w0 w1 alt, fn w0 = (Normal alt, w1) -> reachable alt) ->
    Option.orElse this fn w = (Normal o, w') ->
    reachable o.

(** * Basic facts *)

Lemma isNone_negb_isSome (this : Option.t) :
  Option.isNone this = negb (Option.isSome this).
Proof.
  unfold Option.isNone, Option.isSome.
  now rewrite negb_involutive.
Qed.

Lemma isNone_iff_None (this : Option.t) :
  Option.isNone this = true <-> this = Option.None.
Proof.
  destruct this as [v]; unfold Option.isNone, Option.None; simpl.
  split.
  - destruct v; simpl; intro H; try discriminate H; reflexivity.
  - intro H; injection H as ->; reflexivity.
Qed.

Lemma isSome_Some (v : JsValue) :
  Option.isSome (Option.Some v) = negb (is_undefined v).
Proof. reflexivity. Qed.

(** The tests of the source file, on the model. *)

Example test_create_Some :
  Option.isSome (Option.Some (JsNumber 42)) = true /\
  Option.unwrap (Option.Some (JsNumber 42)) tt = (Normal (JsNumber 42), tt).
Proof. split; reflexivity. Qed.

Example test_create_None : Option.isNone Option.None = true.
Proof. reflexivity. Qed.

Example test_unwrapOr : Option.unwrapOr Option.None (JsNumber 0) = JsNumber 0.
Proof. reflexivity. Qed.

Example test_unwrapOrElse :
  Option.unwrapOrElse Option.None (ret (JsNumber 99)) tt
  = (Normal (JsNumber 99), tt).
Proof. reflexivity. Qed.

(** * Construction and the predicates *)

(** C1, as stated, fails at [undefined]: [Option.Some(undefined)] answers
    [isSome() = false] and [isNone() = true]. *)
Lemma Some_undefined_is_not_Some :
  Option.isSome (Option.Some JsUndefined) = false /\
  Option.isNone (Option.Some JsUndefined) = true /\
  ~ (Option.isSome (Option.Some JsUndefined) = true /\
     Option.isNone (Option.Some JsUndefined) = false).
Proof.
  repeat split.
  intros [H _]. discriminate H.
Qed.

(** C1 (amended): for every value [v] other than [undefined], the container
    [Option.Some(v)] answers [isSome() = true] and [isNone() = false];
    [Some] stores its argument as it is, without any check. *)
Theorem Some_defined_is_Some (v : JsValue) :
  is_undefined v = false ->
  Option.isSome (Option.Some v) = true /\
  Option.isNone (Option.Some v) = false /\
  Option.value (Option.Some v) = v.
Proof.
  intro Hv.
  rewrite isNone_negb_isSome, isSome_Some, Hv.
  repeat split.
Qed.

Lemma Some_defined_is_Some_witness :
  is_undefined (JsNumber 0) = false /\
  Option.isSome (Option.Some (JsNumber 0)) = true /\
  Option.isNone (Option.Some (JsNumber 0)) = false /\
  Option.value (Option.Some (JsNumber 0)) = JsNumber 0.
Proof.
  split; [reflexivity | apply (Some_defined_is_Some (JsNumber 0)); reflexivity].
Defined.

(** Zero, the empty text, the empty sequence, [null] and [false] are all
    held as values. *)
Example empty_like_values_are_Some :
  forallb (fun v => Option.isSome (Option.Some v))
    [JsNumber 0; JsString ""; JsArray []; JsNull; JsBoolean false] = true.
Proof. reflexivity. Qed.

(** * Spies do not change what a function does *)

Lemma spy_result {W A : Type} (name : string) (fn : Eff W A)
    (log : list Call) (w : W) :
  fst (spy name fn (log, w)) = fst (fn w) /\
  snd (snd (spy name fn (log, w))) = snd (fn w).
Proof.
  unfold spy; simpl.
  destruct (fn w) as [r w']; split; reflexivity.
Qed.

Lemma spy_calls {W A : Type} (name : string) (fn : Eff W A) (w : W) :
  calls (spy name fn) w = [call name []].
Proof.
  unfold calls, spy; simpl.
  now destruct (fn w).
Qed.

Lemma spy1_calls {W A : Type} (name : string) (fn : JsValue -> Eff W A)
    (v : JsValue) (w : W) :
  calls (spy1 name fn v) w = [call name [v]].
Proof.
  unfold calls, spy1; simpl.
  now destruct (fn v w).
Qed.

Lemma ret_calls {W A : Type} (a : A) (w : W) :
  calls (W := W) (ret a) w = [].
Proof. reflexivity. Qed.

(** A defined value makes [Some] a container that [isSome]. *)
Lemma isSome_defined (v : JsValue) :
  is_undefined v = false -> Option.isSome (Option.Some v) = true.
Proof. intro Hv. now rewrite isSome_Some, Hv. Qed.

(** * unwrap *)

(** C2, as stated, fails at [undefined]: [Option.Some(undefined).unwrap()]
    throws instead of returning [undefined]. *)
Lemma unwrap_Some_undefined_throws :
  Option.unwrap (Option.Some JsUndefined) tt
  = (Throw (JsError "Tried to unwrap an Option that is None"), tt) /\
  Option.unwrap (Option.Some JsUndefined) tt <> (Normal JsUndefined, tt).
Proof.
  split.
  - reflexivity.
  - simpl. discriminate.
Qed.

(** C2 (amended): for every value [v] other than [undefined],
    [Option.Some(v).unwrap()] returns [v] itself, does not throw and leaves
    the world as it was. *)
Theorem unwrap_Some_defined (W : Type) (v : JsValue) (w : W) :
  is_undefined v = false ->
  Option.unwrap (Option.Some v) w = (Normal v, w).
Proof.
  intro Hv.
  unfold Option.unwrap, Option.isNone; simpl.
  rewrite Hv. reflexivity.
Qed.

Lemma unwrap_Some_defined_witness :
  is_undefined (JsNumber 42) = false /\
  Option.unwrap (Option.Some (JsNumber 42)) tt = (Normal (JsNumber 42), tt).
Proof.
  split; [reflexivity | apply (unwrap_Some_defined unit (JsNumber 42) tt); reflexivity].
Defined.

(** * Some(undefined) and None *)

(** C3: [Option.Some(undefined)] cannot be told apart from [Option.None()].
    It is the same record; [isSome()] is false, [isNone()] is true,
    [unwrap()] throws, [unwrapOr(d)] gives [d], [map(fn)] gives an absent
    container and never calls [fn], [orElse(fn)] gives what [fn()] gives,
    and [match] runs the None branch and only that one. *)
Theorem Some_undefined_is_None :
  Option.Some JsUndefined = Option.None /\
  Option.isSome (Option.Some JsUndefined) = false /\
  Option.isNone (Option.Some JsUndefined) = true /\
  (forall (W : Type) (w : W),
      Option.unwrap (Option.Some JsUndefined) w
      = (Throw (JsError "Tried to unwrap an Option that is None"), w)) /\
  (forall d : JsValue, Option.unwrapOr (Option.Some JsUndefined) d = d) /\
  (forall (W : Type) (fn : JsValue -> Eff W JsValue) (w : W),
      Option.map (Option.Some JsUndefined) fn w = (Normal Option.None, w) /\
      calls (Option.map (Option.Some JsUndefined) (spy1 "fn" fn)) w = []) /\
  (forall (W : Type) (fn : Eff W Option.t) (w : W),
      Option.orElse (Option.Some JsUndefined) fn w = fn w) /\
  (forall (W U : Type) (someFn : JsValue -> Eff W U) (noneFn : Eff W U) (w : W),
      Option.match_ (Option.Some JsUndefined) someFn noneFn w = noneFn w /\
      calls (Option.match_ (Option.Some JsUndefined)
               (spy1 "someFn" someFn) (spy "noneFn" noneFn)) w
      = [call "noneFn" []]).
Proof.
  split; [reflexivity|].
  split; [reflexivity|].
  split; [reflexivity|].
  split; [intros; reflexivity|].
  split; [intros; reflexivity|].
  split; [intros; split; reflexivity|].
  split; [intros; reflexivity|].
  intros W U someFn noneFn w; split.
  - reflexivity.
  - change (Option.match_ (Option.Some JsUndefined)
              (spy1 "someFn" someFn) (spy "noneFn" noneFn))
      with (spy "noneFn" noneFn).
    apply spy_calls.
Qed.

(** * Who can throw *)

Lemma unwrap_cases (W : Type) (this : Option.t) (w : W) :
  (Option.isNone this = true /\
   Option.unwrap this w
   = (Throw (JsError "Tried to unwrap an Option that is None"), w)) \/
  (Option.isNone this = false /\
   Option.unwrap this w = (Normal (Option.value this), w)).
Proof.
  unfold Option.unwrap.
  case_eq (Option.isNone this); intro Hn; [left | right]; split; reflexivity.
Qed.

Lemma total_ret {W A : Type} (a : A) : total (W := W) (ret a).
Proof. intro w; reflexivity. Qed.

Lemma total_bind_ret {W A B : Type} (c : Eff W A) (f : A -> B) :
  total c -> total (x <- c ;; ret (f x)).
Proof.
  intros Hc w.
  specialize (Hc w).
  unfold completes, bind in *.
  destruct (c w) as [[a | e] w']; simpl in *; [reflexivity | discriminate Hc].
Qed.

(** C4: [unwrap()] throws exactly when the container is None, and what it
    throws is the error with the message "Tried to unwrap an Option that is
    None"; otherwise it returns the held value.  No other method throws:
    [Some], [None], [isSome], [isNone] and [unwrapOr] call nothing and
    contain no [throw] (they are plain functions, and complete as
    computations), and [unwrapOrElse], [map], [orElse] and [match] complete
    whenever the functions handed to them do. *)
Theorem unwrap_is_the_only_thrower (W U : Type) (this : Option.t)
    (d : JsValue)
    (fn : Eff W JsValue) (mapFn : JsValue -> Eff W JsValue)
    (elseFn : Eff W Option.t)
    (someFn : JsValue -> Eff W U) (noneFn : Eff W U) :
  total fn ->
  (forall v, total (mapFn v)) ->
  total elseFn ->
  (forall v, total (someFn v)) ->
  total noneFn ->
  (forall w : W,
      (exists e w', Option.unwrap this w = (Throw e, w'))
      <-> Option.isNone this = true) /\
  (forall (w w' : W) (e : JsValue),
      Option.unwrap this w = (Throw e, w') ->
      e = JsError "Tried to unwrap an Option that is None" /\ w' = w) /\
  (forall w : W,
      Option.isNone this = false ->
      Option.unwrap this w = (Normal (Option.value this), w)) /\
  total (W := W) (ret (Option.Some d)) /\
  total (W := W) (ret Option.None) /\
  total (W := W) (ret (Option.isSome this)) /\
  total (W := W) (ret (Option.isNone this)) /\
  total (W := W) (ret (Option.unwrapOr this d)) /\
  total (Option.unwrapOrElse this fn) /\
  total (Option.map this mapFn) /\
  total (Option.orElse this elseFn) /\
  total (Option.match_ this someFn noneFn).
Proof.
  intros Hfn Hmap Helse Hsome Hnone.
  split.
  { intro w; split.
    - intros (e & w' & He).
      destruct (unwrap_cases W this w) as [[Hn _] | [_ Hr]]; [exact Hn|].
      rewrite Hr in He; discriminate He.
    - intro Hn.
      destruct (unwrap_cases W this w) as [[_ Ht] | [Hf _]].
      + eauto.
      + rewrite Hn in Hf; discriminate Hf. }
  split.
  { intros w w' e He.
    destruct (unwrap_cases W this w) as [[_ Ht] | [_ Hr]];
      rewrite He in *.
    - injection Ht as -> ->; split; reflexivity.
    - discriminate Hr. }
  split.
  { intros w Hn.
    destruct (unwrap_cases W this w) as [[Ht _] | [_ Hr]]; [|exact Hr].
    rewrite Hn in Ht; discriminate Ht. }
  repeat (split; [apply total_ret|]).
  unfold Option.unwrapOrElse, Option.map, Option.orElse, Option.match_.
  destruct (Option.isSome this).
  - split; [apply total_ret|].
    split; [apply total_bind_ret, Hmap|].
    split; [apply total_ret | apply Hsome].
  - split; [exact Hfn|].
    split; [apply total_ret|].
    split; [exact Helse | exact Hnone].
Qed.

Lemma unwrap_is_the_only_thrower_witness :
  total (W := unit) (ret (JsNumber 99)) /\
  (forall v, total (W := unit) ((fun x : JsValue => ret x) v)) /\
  total (W := unit) (ret (Option.Some (JsNumber 99))) /\
  (forall v, total (W := unit) ((fun x : JsValue => ret x) v)) /\
  total (W := unit) (ret (JsNumber 0)) /\
  (forall w : unit,
      (exists e w', Option.unwrap Option.None w = (Throw e, w'))
      <-> Option.isNone Option.None = true) /\
  total (Option.unwrapOrElse (W := unit) Option.None (ret (JsNumber 99))) /\
  total (Option.map (W := unit) Option.None (fun x => ret x)) /\
  total (Option.orElse (W := unit) Option.None (ret (Option.Some (JsNumber 99)))) /\
  total (Option.match_ (W := unit) Option.None
           (fun x : JsValue => ret x) (ret (JsNumber 0))).
Proof.
  assert (H1 : total (W := unit) (ret (JsNumber 99))) by (intro w; reflexivity).
  assert (H2 : forall v, total (W := unit) ((fun x : JsValue => ret x) v))
    by (intros v w; reflexivity).
  assert (H3 : total (W := unit) (ret (Option.Some (JsNumber 99))))
    by (intro w; reflexivity).
  assert (H4 : total (W := unit) (ret (JsNumber 0))) by (intro w; reflexivity).
  pose proof (unwrap_is_the_only_thrower unit JsValue Option.None (JsNumber 0)
                (ret (JsNumber 99)) (fun x => ret x)
                (ret (Option.Some (JsNumber 99)))
                (fun x => ret x) (ret (JsNumber 0)) H1 H2 H3 H2 H4) as T.
  repeat (split; [assumption|]).
  split; [apply T|].
  split; [apply T|].
  split; [apply T|].
  split; apply T.
Defined.

Example test_unwrap_None_throws :
  Option.unwrap Option.None tt
  = (Throw (JsError "Tried to unwrap an Option that is None"), tt).
Proof. reflexivity. Qed.

(** * map *)

(** C5, as stated, fails twice: a function that returns [undefined] makes
    [map] produce a container that is None although the receiver held a
    value, and [Option.Some(undefined).map(fn)] is None without [fn] being
    called. *)
Lemma map_can_lose_presence :
  Option.map (Option.Some (JsNumber 1)) (fun _ => ret JsUndefined) tt
  = (Normal Option.None, tt) /\
  Option.isSome Option.None = false /\
  ~ (exists o w, Option.map (Option.Some (JsNumber 1))
                   (fun _ => ret JsUndefined) tt = (Normal o, w) /\
                 Option.isSome o = true) /\
  Option.map (Option.Some JsUndefined) (fun _ => ret (JsNumber 1)) tt
  = (Normal Option.None, tt) /\
  calls (Option.map (Option.Some JsUndefined)
           (spy1 "fn" (fun _ => ret (W := unit) (JsNumber 1)))) tt = [].
Proof.
  split; [reflexivity|].
  split; [reflexivity|].
  split; [|split; reflexivity].
  intros (o & w & Hrun & Hsome).
  simpl in Hrun.
  inversion Hrun; subst o.
  discriminate Hsome.
Qed.

Lemma map_Some_run (W : Type) (v : JsValue) (fn : JsValue -> Eff W JsValue)
    (w : W) :
  is_undefined v = false ->
  Option.map (Option.Some v) fn w
  = (u <- fn v ;; ret (Option.Some u)) w.
Proof.
  intro Hv.
  unfold Option.map.
  now rewrite (isSome_defined v Hv).
Qed.

(** C5 (amended): for every function [fn], whatever it does (it may throw
    or return [undefined]), [Option.None().map(fn)] is a None container and
    [fn] is not called.  For every value [v] other than [undefined]: mapping
    the identity over [Option.Some(v)] gives [Option.Some(v)] again, and for
    every [fn] whose call [fn(v)] returns a value [u] other than [undefined],
    [Option.Some(v).map(fn)] is a container that [isSome], whose [unwrap()]
    is [u], and [fn] is called once, on [v]. *)
Theorem map_laws (W : Type) (fn : JsValue -> Eff W JsValue) :
  (forall w : W,
      Option.map Option.None fn w = (Normal Option.None, w) /\
      Option.isNone Option.None = true /\
      calls (Option.map Option.None (spy1 "fn" fn)) w = []) /\
  (forall (v : JsValue) (w : W),
      is_undefined v = false ->
      Option.map (Option.Some v) (fun x => ret x) w
      = (Normal (Option.Some v), w)) /\
  (forall (v u : JsValue) (w w' : W),
      is_undefined v = false ->
      fn v w = (Normal u, w') ->
      is_undefined u = false ->
      Option.map (Option.Some v) fn w = (Normal (Option.Some u), w') /\
      Option.isSome (Option.Some u) = true /\
      Option.unwrap (Option.Some u) w' = (Normal u, w') /\
      calls (Option.map (Option.Some v) (spy1 "fn" fn)) w = [call "fn" [v]]).
Proof.
  split; [|split].
  - intro w. repeat split.
  - intros v w Hv.
    rewrite (map_Some_run W v (fun x => ret x) w Hv). reflexivity.
  - intros v u w w' Hv Hfn Hu.
    split.
    { rewrite (map_Some_run W v fn w Hv).
      unfold bind. rewrite Hfn. reflexivity. }
    split; [exact (isSome_defined u Hu)|].
    split.
    { unfold Option.unwrap, Option.isNone; simpl. now rewrite Hu. }
    unfold calls.
    rewrite (map_Some_run (Spied W) v (spy1 "fn" fn) ([], w) Hv).
    unfold bind, spy1; simpl.
    rewrite Hfn. reflexivity.
Qed.

Lemma map_laws_witness :
  is_undefined (JsNumber 42) = false /\
  (fun x => ret (W := unit) match x with JsNumber n => JsNumber (n + 1) | _ => x end)
    (JsNumber 42) tt = (Normal (JsNumber 43), tt) /\
  is_undefined (JsNumber 43) = false /\
  Option.map (Option.Some (JsNumber 42))
    (fun x => ret match x with JsNumber n => JsNumber (n + 1) | _ => x end) tt
  = (Normal (Option.Some (JsNumber 43)), tt) /\
  Option.unwrap (Option.Some (JsNumber 43)) tt = (Normal (JsNumber 43), tt) /\
  Option.map (Option.Some (JsNumber 42)) (fun x => ret x) tt
  = (Normal (Option.Some (JsNumber 42)), tt) /\
  Option.map Option.None
    (fun x => ret match x with JsNumber n => JsNumber (n + 1) | _ => x end) tt
  = (Normal Option.None, tt).
Proof.
  destruct (map_laws unit
              (fun x => ret match x with
                            | JsNumber n => JsNumber (n + 1)
                            | _ => x
                            end)) as (TNone & TId & TSome).
  pose proof (TSome (JsNumber 42) (JsNumber 43) tt tt
                eq_refl eq_refl eq_refl) as T.
  split; [reflexivity|].
  split; [reflexivity|].
  split; [reflexivity|].
  split; [apply T|].
  split; [apply T|].
  split; [exact (TId (JsNumber 42) tt eq_refl) | apply (TNone tt)].
Defined.

(** The None half holds for a function that always throws and for one that
    always returns [undefined]: neither is ever run. *)
Example map_None_never_runs_fn :
  Option.map Option.None (fun _ => throw (JsError "boom")) tt
  = (Normal Option.None, tt) /\
  calls (Option.map Option.None
           (spy1 "fn" (fun _ => throw (W := unit) (JsError "boom")))) tt = [] /\
  Option.map Option.None (fun _ => ret JsUndefined) tt
  = (Normal Option.None, tt) /\
  calls (Option.map Option.None
           (spy1 "fn" (fun _ => ret (W := unit) JsUndefined))) tt = [].
Proof. repeat split. Qed.

Example test_map_None :
  Option.map Option.None
    (fun x => ret match x with JsNumber n => JsNumber (n + 1) | _ => x end) tt
  = (Normal Option.None, tt).
Proof. reflexivity. Qed.

(** * orElse *)

(** C6, as stated, fails at [undefined]: [Option.Some(undefined).orElse(fn)]
    calls [fn] and returns what [fn] made, not the receiver. *)
Lemma orElse_Some_undefined_falls_back :
  Option.orElse (Option.Some JsUndefined) (ret (Option.Some (JsNumber 99))) tt
  = (Normal (Option.Some (JsNumber 99)), tt) /\
  Option.orElse (Option.Some JsUndefined) (ret (Option.Some (JsNumber 99))) tt
  <> (Normal (Option.Some JsUndefined), tt) /\
  calls (Option.orElse (Option.Some JsUndefined)
           (spy "fn" (ret (W := unit) (Option.Some (JsNumber 99))))) tt
  = [call "fn" []].
Proof.
  split; [reflexivity|].
  split; [|reflexivity].
  simpl. intro H. inversion H.
Qed.

(** C6 (amended): for every value [v] other than [undefined] and every
    function [fn], [Option.Some(v).orElse(fn)] returns the receiver as it is
    and [fn] is not called; [Option.None().orElse(fn)] calls [fn] once and
    returns exactly what [fn] returned. *)
Theorem orElse_short_circuit (W : Type) (v : JsValue) (fn : Eff W Option.t) :
  is_undefined v = false ->
  (forall w, Option.orElse (Option.Some v) fn w
             = (Normal (Option.Some v), w)) /\
  (forall w, calls (Option.orElse (Option.Some v) (spy "fn" fn)) w = []) /\
  (forall w, Option.orElse Option.None fn w = fn w) /\
  (forall w, calls (Option.orElse Option.None (spy "fn" fn)) w
             = [call "fn" []]).
Proof.
  intro Hv.
  pose proof (isSome_defined v Hv) as Hs.
  unfold Option.orElse; rewrite Hs; simpl.
  repeat split.
  intro w. apply spy_calls.
Qed.

Lemma orElse_short_circuit_witness :
  is_undefined (JsNumber 42) = false /\
  (forall w : unit,
      Option.orElse (Option.Some (JsNumber 42))
        (ret (Option.Some (JsNumber 99))) w
      = (Normal (Option.Some (JsNumber 42)), w)) /\
  (forall w : unit,
      Option.orElse Option.None (ret (Option.Some (JsNumber 99))) w
      = (Normal (Option.Some (JsNumber 99)), w)).
Proof.
  pose proof (orElse_short_circuit unit (JsNumber 42)
                (ret (Option.Some (JsNumber 99))) eq_refl) as T.
  split; [reflexivity|].
  split; apply T.
Defined.

Example test_orElse :
  Option.orElse (Option.Some (JsNumber 42)) (ret (Option.Some (JsNumber 99))) tt
  = (Normal (Option.Some (JsNumber 42)), tt) /\
  Option.orElse Option.None (ret (Option.Some (JsNumber 99))) tt
  = (Normal (Option.Some (JsNumber 99)), tt).
Proof. split; reflexivity. Qed.

(** * unwrapOrElse *)

(** C7, as stated, fails at [undefined]:
    [Option.Some(undefined).unwrapOrElse(fn)] calls [fn] and returns its
    result. *)
Lemma unwrapOrElse_Some_undefined_calls_fn :
  Option.unwrapOrElse (Option.Some JsUndefined) (ret (JsNumber 99)) tt
  = (Normal (JsNumber 99), tt) /\
  Option.unwrapOrElse (Option.Some JsUndefined) (ret (JsNumber 99)) tt
  <> (Normal JsUndefined, tt) /\
  calls (Option.unwrapOrElse (Option.Some JsUndefined)
           (spy "fn" (ret (W := unit) (JsNumber 99)))) tt
  = [call "fn" []].
Proof.
  split; [reflexivity|].
  split; [|reflexivity].
  cbv. intro H. inversion H.
Qed.

(** C7 (amended): for every value [v] other than [undefined] and every
    function [fn], [Option.Some(v).unwrapOrElse(fn)] returns [v] and never
    calls [fn]; [Option.None().unwrapOrElse(fn)] calls [fn] once and returns
    what [fn] returned. *)
Theorem unwrapOrElse_lazy (W : Type) (v : JsValue) (fn : Eff W JsValue) :
  is_undefined v = false ->
  (forall w, Option.unwrapOrElse (Option.Some v) fn w = (Normal v, w)) /\
  (forall w, calls (Option.unwrapOrElse (Option.Some v) (spy "fn" fn)) w
             = []) /\
  (forall w, Option.unwrapOrElse Option.None fn w = fn w) /\
  (forall w, calls (Option.unwrapOrElse Option.None (spy "fn" fn)) w
             = [call "fn" []]).
Proof.
  intro Hv.
  assert (Hrun : forall (W' : Type) (g : Eff W' JsValue),
             Option.unwrapOrElse (Option.Some v) g = ret v).
  { intros W' g. unfold Option.unwrapOrElse.
    rewrite (isSome_defined v Hv). reflexivity. }
  split; [intro w; now rewrite Hrun|].
  split; [intro w; now rewrite Hrun|].
  split; [reflexivity|].
  intro w. exact (spy_calls "fn" fn w).
Qed.

Lemma unwrapOrElse_lazy_witness :
  is_undefined (JsString "") = false /\
  (forall w : nat,
      Option.unwrapOrElse (Option.Some (JsString ""))
        (fun n => (Normal (JsNumber 99), S n)) w
      = (Normal (JsString ""), w)) /\
  (forall w : nat,
      Option.unwrapOrElse Option.None
        (fun n => (Normal (JsNumber 99), S n)) w
      = (Normal (JsNumber 99), S w)).
Proof.
  pose proof (unwrapOrElse_lazy nat (JsString "")
                (fun n => (Normal (JsNumber 99), S n)) eq_refl) as T.
  split; [reflexivity|].
  split; apply T.
Defined.

(** * unwrapOr *)

(** C8, as stated, fails at [undefined]:
    [Option.Some(undefined).unwrapOr(0)] is [0], not [undefined]. *)
Lemma unwrapOr_Some_undefined_gives_default :
  Option.unwrapOr (Option.Some JsUndefined) (JsNumber 0) = JsNumber 0 /\
  Option.unwrapOr (Option.Some JsUndefined) (JsNumber 0) <> JsUndefined.
Proof.
  split; [reflexivity | simpl; discriminate].
Qed.

(** C8 (amended): for every value [v] other than [undefined] and every
    default [d], [Option.Some(v).unwrapOr(d)] is [v], and
    [Option.None().unwrapOr(d)] is [d]; [unwrapOr] calls nothing and has no
    [throw], so it always returns. *)
Theorem unwrapOr_spec (v d : JsValue) :
  is_undefined v = false ->
  Option.unwrapOr (Option.Some v) d = v /\
  Option.unwrapOr Option.None d = d.
Proof.
  intro Hv; split.
  - destruct v; try reflexivity. discriminate Hv.
  - reflexivity.
Qed.

Lemma unwrapOr_spec_witness :
  is_undefined JsNull = false /\
  Option.unwrapOr (Option.Some JsNull) (JsNumber 0) = JsNull /\
  Option.unwrapOr Option.None (JsNumber 0) = JsNumber 0.
Proof.
  split; [reflexivity | apply (unwrapOr_spec JsNull (JsNumber 0)); reflexivity].
Defined.

(** * match *)

(** C9, as stated, fails at [undefined]:
    [Option.Some(undefined).match(onSome, onNone)] runs [onNone], so its
    result is [onNone()] and not [onSome(undefined)]. *)
Lemma match_Some_undefined_runs_noneFn :
  Option.match_ (Option.Some JsUndefined)
    (fun _ => ret (JsNumber 1)) (ret (JsNumber 0)) tt
  = (Normal (JsNumber 0), tt) /\
  Option.match_ (Option.Some JsUndefined)
    (fun _ => ret (JsNumber 1)) (ret (JsNumber 0)) tt
  <> (fun _ : JsValue => ret (JsNumber 1)) JsUndefined tt /\
  calls (Option.match_ (Option.Some JsUndefined)
           (spy1 "someFn" (fun _ => ret (W := unit) (JsNumber 1)))
           (spy "noneFn" (ret (JsNumber 0)))) tt
  = [call "noneFn" []].
Proof.
  split; [reflexivity|].
  split; [|reflexivity].
  cbv. intro H. inversion H.
Qed.

(** C9 (amended): for every container and every pair of branch functions,
    [match] runs exactly one branch per call and returns its result:
    [someFn] on the held value when the container [isSome], [noneFn] with no
    argument otherwise.  So [Option.Some(v).match(someFn, noneFn)] is
    [someFn(v)] for every [v] other than [undefined], and
    [Option.None().match(someFn, noneFn)] is [noneFn()]. *)
Theorem match_dispatch (W U : Type) (this : Option.t) (v : JsValue)
    (someFn : JsValue -> Eff W U) (noneFn : Eff W U) :
  is_undefined v = false ->
  (forall w, Option.match_ this someFn noneFn w
             = if Option.isSome this
               then someFn (Option.value this) w
               else noneFn w) /\
  (forall w, calls (Option.match_ this (spy1 "someFn" someFn)
                      (spy "noneFn" noneFn)) w
             = if Option.isSome this
               then [call "someFn" [Option.value this]]
               else [call "noneFn" []]) /\
  (forall w, Option.match_ (Option.Some v) someFn noneFn w = someFn v w) /\
  (forall w, Option.match_ Option.None someFn noneFn w = noneFn w).
Proof.
  intro Hv.
  split; [|split; [|split]]; intro w.
  - unfold Option.match_. now destruct (Option.isSome this).
  - unfold Option.match_.
    destruct (Option.isSome this).
    + apply spy1_calls.
    + apply spy_calls.
  - unfold Option.match_.
    rewrite (isSome_defined v Hv). reflexivity.
  - reflexivity.
Qed.

Lemma match_dispatch_witness :
  is_undefined (JsNumber 42) = false /\
  (forall w : unit,
      Option.match_ (Option.Some (JsNumber 42))
        (fun x => ret match x with JsNumber n => JsNumber (n + 1) | _ => x end)
        (ret (JsNumber 0)) w
      = (Normal (JsNumber 43), w)) /\
  (forall w : unit,
      Option.match_ Option.None
        (fun x => ret match x with JsNumber n => JsNumber (n + 1) | _ => x end)
        (ret (JsNumber 0)) w
      = (Normal (JsNumber 0), w)).
Proof.
  pose proof (match_dispatch unit JsValue Option.None (JsNumber 42)
                (fun x => ret match x with
                              | JsNumber n => JsNumber (n + 1)
                              | _ => x
                              end)
                (ret (JsNumber 0)) eq_refl) as T.
  split; [reflexivity|].
  split; apply T.
Defined.

(** * The two predicates *)

(** The field is the whole state, so every record is what [Some] makes of
    its field: being reachable excludes nothing. *)
Lemma every_record_reachable (W : Type) (o : Option.t) : reachable (W := W) o.
Proof. destruct o as [v]. exact (reach_Some v). Qed.

(** C10: for every container obtained through [Some], [None], [map] and
    [orElse], exactly one of [isSome()] and [isNone()] is true, and
    [isNone()] is the negation of [isSome()]; for [Option.None()],
    [isSome()] is false and [isNone()] is true. *)
Theorem predicates_exclusive (W : Type) (o : Option.t) :
  reachable (W := W) o ->
  xorb (Option.isSome o) (Option.isNone o) = true /\
  Option.isNone o = negb (Option.isSome o) /\
  Option.isSome Option.None = false /\
  Option.isNone Option.None = true.
Proof.
  intros _.
  rewrite isNone_negb_isSome.
  split; [now destruct (Option.isSome o) | repeat split].
Qed.

Lemma predicates_exclusive_witness :
  reachable (W := unit) (Option.Some (JsNumber 43)) /\
  xorb (Option.isSome (Option.Some (JsNumber 43)))
       (Option.isNone (Option.Some (JsNumber 43))) = true /\
  Option.isNone (Option.Some (JsNumber 43))
  = negb (Option.isSome (Option.Some (JsNumber 43))).
Proof.
  assert (R : reachable (W := unit) (Option.Some (JsNumber 43))).
  { apply (reach_map (Option.Some (JsNumber 42))
             (fun x => ret match x with
                           | JsNumber n => JsNumber (n + 1)
                           | _ => x
                           end) tt tt).
    - apply reach_Some.
    - reflexivity. }
  pose proof (predicates_exclusive unit (Option.Some (JsNumber 43)) R) as T.
  split; [exact R|].
  split; apply T.
Defined.

(** * Further properties of the class *)

(** The two shapes a container can have. *)
Lemma presence_cases (this : Option.t) :
  (Option.isSome this = true /\
   is_undefined (Option.value this) = false /\
   this = Option.Some (Option.value this)) \/
  (Option.isSome this = false /\ this = Option.None).
Proof.
  destruct this as [v]; unfold Option.isSome; simpl.
  destruct v; simpl; (left; repeat split; reflexivity) || (right; split; reflexivity).
Qed.

Ltac by_presence this :=
  let Hs := fresh "Hsome" in
  let Hv := fresh "Hdef" in
  let He := fresh "Hshape" in
  destruct (presence_cases this) as [(Hs & Hv & He) | (Hs & He)].

(** [undefined] is the only argument that makes [Option.Some] build the
    None container: [Some(v)] answers [isNone()] exactly when [v] is
    [undefined], and two containers built by [Some] are the same only when
    built from the same value. *)
Theorem Some_is_None_only_for_undefined (v v' : JsValue) :
  (Option.isNone (Option.Some v) = true <-> v = JsUndefined) /\
  (Option.Some v = Option.None <-> v = JsUndefined) /\
  (Option.Some v = Option.Some v' <-> v = v').
Proof.
  split; [|split].
  - rewrite isNone_iff_None. unfold Option.Some, Option.None.
    split; [intro H; injection H as ->; reflexivity | intros ->; reflexivity].
  - unfold Option.Some, Option.None.
    split; [intro H; injection H as ->; reflexivity | intros ->; reflexivity].
  - split; [intro H; injection H as ->; reflexivity | intros ->; reflexivity].
Qed.

(** Whenever [unwrap()] returns, what it returns is not [undefined], the
    world is as before, and wrapping the result with [Option.Some] gives the
    receiver back. *)
Theorem unwrap_returns_defined (W : Type) (this : Option.t) (v : JsValue)
    (w w' : W) :
  Option.unwrap this w = (Normal v, w') ->
  is_undefined v = false /\ Option.Some v = this /\ w' = w.
Proof.
  intro Hrun.
  destruct (unwrap_cases W this w) as [[_ Ht] | [Hn Hr]].
  - rewrite Ht in Hrun; discriminate Hrun.
  - rewrite Hr in Hrun. injection Hrun as <- <-.
    split; [exact Hn|].
    split; [|reflexivity].
    now destruct this.
Qed.

Lemma unwrap_returns_defined_witness :
  Option.unwrap (Option.Some (JsString "")) tt = (Normal (JsString ""), tt) /\
  is_undefined (JsString "") = false /\
  Option.Some (JsString "") = Option.Some (JsString "") /\
  tt = tt.
Proof.
  split; [reflexivity|].
  apply (unwrap_returns_defined unit (Option.Some (JsString "")) (JsString "")
           tt tt).
  reflexivity.
Defined.

(** With a default that is not [undefined], [unwrapOr] never yields
    [undefined], whatever the container; the same holds for [unwrapOrElse]
    when the function it is given never returns [undefined]. *)
Theorem defaults_keep_undefined_out (W : Type) (this : Option.t)
    (d : JsValue) (fn : Eff W JsValue) :
  is_undefined d = false ->
  (forall w u w', fn w = (Normal u, w') -> is_undefined u = false) ->
  is_undefined (Option.unwrapOr this d) = false /\
  (forall w u w',
      Option.unwrapOrElse this fn w = (Normal u, w') ->
      is_undefined u = false).
Proof.
  intros Hd Hfn.
  unfold Option.unwrapOr, Option.unwrapOrElse.
  by_presence this; rewrite Hsome.
  - split; [exact Hdef|].
    intros w u w' Hrun. injection Hrun as <- _. exact Hdef.
  - split; [exact Hd | exact Hfn].
Qed.

Lemma defaults_keep_undefined_out_witness :
  is_undefined (JsNumber 0) = false /\
  (forall (w : unit) u w',
      ret (JsNumber 99) w = (Normal u, w') -> is_undefined u = false) /\
  is_undefined (Option.unwrapOr Option.None (JsNumber 0)) = false /\
  (forall (w : unit) u w',
      Option.unwrapOrElse Option.None (ret (JsNumber 99)) w = (Normal u, w') ->
      is_undefined u = false).
Proof.
  assert (Hfn : forall (w : unit) u w',
             ret (JsNumber 99) w = (Normal u, w') -> is_undefined u = false).
  { intros w u w' H. injection H as <- _. reflexivity. }
  split; [reflexivity|].
  split; [exact Hfn|].
  apply (defaults_keep_undefined_out unit Option.None (JsNumber 0)
           (ret (JsNumber 99)) eq_refl Hfn).
Defined.

(** Every other method is [match] with suitable branches: [isSome],
    [unwrap], [unwrapOr], [unwrapOrElse], [map] and [orElse] give, on every
    container and in every world, what the corresponding [match] call
    gives. *)
Theorem match_expresses_the_methods (W : Type) (this : Option.t)
    (d : JsValue) (fn : Eff W JsValue) (mapFn : JsValue -> Eff W JsValue)
    (elseFn : Eff W Option.t) (w : W) :
  ret (Option.isSome this) w
  = Option.match_ this (fun _ => ret true) (ret false) w /\
  Option.unwrap this w
  = Option.match_ this (fun x => ret x)
      (throw (JsError "Tried to unwrap an Option that is None")) w /\
  ret (Option.unwrapOr this d) w
  = Option.match_ this (fun x => ret x) (ret d) w /\
  Option.unwrapOrElse this fn w
  = Option.match_ this (fun x => ret x) fn w /\
  Option.map this mapFn w
  = Option.match_ this (fun x => u <- mapFn x ;; ret (Option.Some u))
      (ret Option.None) w /\
  Option.orElse this elseFn w
  = Option.match_ this (fun x => ret (Option.Some x)) elseFn w.
Proof.
  unfold Option.unwrap, Option.unwrapOr, Option.unwrapOrElse, Option.map,
    Option.orElse, Option.match_.
  rewrite isNone_negb_isSome.
  by_presence this; rewrite Hsome; simpl.
  - rewrite <- Hshape. repeat split.
  - repeat split.
Qed.

(** * map as a functor *)

(** Mapping the identity function gives the receiver back, on every
    container. *)
Theorem map_identity (W : Type) (this : Option.t) (w : W) :
  Option.map this (fun x => ret x) w = (Normal this, w).
Proof.
  unfold Option.map.
  by_presence this; rewrite Hsome.
  - unfold bind, ret. now rewrite <- Hshape.
  - now rewrite Hshape.
Qed.

(** Two [map] calls in a row are one [map] with the composed function, as
    long as the first function never returns [undefined]. *)
Theorem map_composition (W : Type) (this : Option.t)
    (f g : JsValue -> Eff W JsValue) :
  (forall x w u w', f x w = (Normal u, w') -> is_undefined u = false) ->
  forall w,
    (o <- Option.map this f ;; Option.map o g) w
    = Option.map this (fun x => u <- f x ;; g u) w.
Proof.
  intros Hf w.
  unfold Option.map at 1 3.
  destruct (Option.isSome this); [|reflexivity].
  unfold bind.
  destruct (f (Option.value this) w) as [[u | e] w1] eqn:Hrun; simpl.
  - unfold Option.map.
    rewrite (isSome_defined u (Hf _ _ _ _ Hrun)). reflexivity.
  - reflexivity.
Qed.

Lemma map_composition_witness :
  (forall x (w : unit) u w',
      (fun y => ret (JsArray [y])) x w = (Normal u, w') ->
      is_undefined u = false) /\
  (forall w : unit,
      (o <- Option.map (Option.Some (JsNumber 1)) (fun y => ret (JsArray [y])) ;;
       Option.map o (fun y => ret (JsArray [y]))) w
      = Option.map (Option.Some (JsNumber 1))
          (fun x => u <- (fun y => ret (JsArray [y])) x ;;
                    (fun y => ret (JsArray [y])) u) w).
Proof.
  assert (Hf : forall x (w : unit) u w',
             (fun y => ret (JsArray [y])) x w = (Normal u, w') ->
             is_undefined u = false).
  { intros x w u w' H. injection H as <- _. reflexivity. }
  split; [exact Hf|].
  exact (map_composition unit (Option.Some (JsNumber 1))
           (fun y => ret (JsArray [y])) (fun y => ret (JsArray [y])) Hf).
Defined.

(** Without that condition the two sides differ: the first [map] ends in
    None and the second function is never reached. *)
Example map_composition_needs_defined :
  (o <- Option.map (Option.Some (JsNumber 1)) (fun _ => ret JsUndefined) ;;
   Option.map o (fun _ => ret (JsNumber 2))) tt
  = (Normal Option.None, tt) /\
  Option.map (Option.Some (JsNumber 1))
    (fun x => u <- (fun _ => ret JsUndefined) x ;;
              (fun _ => ret (JsNumber 2)) u) tt
  = (Normal (Option.Some (JsNumber 2)), tt).
Proof. split; reflexivity. Qed.

(** What a returning [map] call tells about its receiver: either the
    receiver was None, [fn] was not run and the result is None, or the
    receiver held a value, [fn] returned [u] on it and the result is
    [Option.Some(u)].  So a result that [isSome] always comes from a receiver
    that [isSome]. *)
Theorem map_inversion (W : Type) (this o : Option.t)
    (fn : JsValue -> Eff W JsValue) (w w' : W) :
  Option.map this fn w = (Normal o, w') ->
  ((Option.isSome this = false /\ o = Option.None /\ w' = w) \/
   (Option.isSome this = true /\
    exists u, fn (Option.value this) w = (Normal u, w') /\
              o = Option.Some u)) /\
  (Option.isSome o = true -> Option.isSome this = true).
Proof.
  unfold Option.map.
  destruct (Option.isSome this) eqn:Hs; intro Hrun.
  - split; [right | reflexivity].
    split; [reflexivity|].
    unfold bind in Hrun.
    destruct (fn (Option.value this) w) as [[u | e] w1]; [|discriminate Hrun].
    inversion Hrun; subst. exists u; split; reflexivity.
  - inversion Hrun; subst.
    split; [left; repeat split | intro H; discriminate H].
Qed.

Lemma map_inversion_witness :
  Option.map Option.None (fun _ => ret (JsNumber 1)) tt
  = (Normal Option.None, tt) /\
  (Option.isSome Option.None = true -> Option.isSome Option.None = true).
Proof.
  split; [reflexivity|].
  apply (map_inversion unit Option.None Option.None
           (fun _ => ret (JsNumber 1)) tt tt).
  reflexivity.
Defined.

(** [map] followed by [unwrapOr] is one [match] call, as long as the mapped
    function never returns [undefined]. *)
Theorem map_then_unwrapOr_is_match (W : Type) (this : Option.t)
    (f : JsValue -> Eff W JsValue) (d : JsValue) :
  (forall x w u w', f x w = (Normal u, w') -> is_undefined u = false) ->
  forall w,
    (o <- Option.map this f ;; ret (Option.unwrapOr o d)) w
    = Option.match_ this f (ret d) w.
Proof.
  intros Hf w.
  unfold Option.map, Option.match_.
  destruct (Option.isSome this); [|reflexivity].
  unfold bind.
  destruct (f (Option.value this) w) as [[u | e] w1] eqn:Hrun; simpl.
  - unfold ret, Option.unwrapOr.
    rewrite (isSome_defined u (Hf _ _ _ _ Hrun)). reflexivity.
  - reflexivity.
Qed.

Lemma map_then_unwrapOr_is_match_witness :
  (forall x (w : unit) u w',
      (fun y => ret (JsArray [y])) x w = (Normal u, w') ->
      is_undefined u = false) /\
  (forall w : unit,
      (o <- Option.map Option.None (fun y => ret (JsArray [y])) ;;
       ret (Option.unwrapOr o JsNull)) w
      = Option.match_ Option.None (fun y => ret (JsArray [y])) (ret JsNull) w).
Proof.
  assert (Hf : forall x (w : unit) u w',
             (fun y => ret (JsArray [y])) x w = (Normal u, w') ->
             is_undefined u = false).
  { intros x w u w' H. injection H as <- _. reflexivity. }
  split; [exact Hf|].
  exact (map_then_unwrapOr_is_match unit Option.None
           (fun y => ret (JsArray [y])) JsNull Hf).
Defined.

(** * orElse as a choice operator *)

(** [Option.None()] is neutral for [orElse] on both sides: falling back
    from None is the fallback itself, and falling back to None changes
    nothing. *)
Theorem orElse_None_neutral (W : Type) (this : Option.t)
    (fn : Eff W Option.t) (w : W) :
  Option.orElse Option.None fn w = fn w /\
  Option.orElse this (ret Option.None) w = (Normal this, w).
Proof.
  split; [reflexivity|].
  unfold Option.orElse.
  by_presence this; rewrite Hsome; [reflexivity|].
  now rewrite Hshape.
Qed.

(** Chained fallbacks can be regrouped: [a.orElse(f).orElse(g)] does what
    [a.orElse(() => f().orElse(g))] does, in results, in effects and in
    what is thrown. *)
Theorem orElse_associative (W : Type) (a : Option.t)
    (f g : Eff W Option.t) (w : W) :
  (o <- Option.orElse a f ;; Option.orElse o g) w
  = Option.orElse a (o <- f ;; Option.orElse o g) w.
Proof.
  unfold Option.orElse at 1 3.
  destruct (Option.isSome a) eqn:Hs; [|reflexivity].
  unfold bind, ret, Option.orElse.
  now rewrite Hs.
Qed.

(** When the fallback function returns a container, [orElse] returns one
    too, and it [isSome] exactly when the receiver or the fallback does; the
    receiver wins when both do. *)
Theorem orElse_presence (W : Type) (this alt : Option.t)
    (fn : Eff W Option.t) (w w1 : W) :
  fn w = (Normal alt, w1) ->
  exists o w',
    Option.orElse this fn w = (Normal o, w') /\
    Option.isSome o = Option.isSome this || Option.isSome alt /\
    (Option.isSome this = true -> o = this /\ w' = w) /\
    (Option.isSome this = false -> o = alt /\ w' = w1).
Proof.
  intro Hfn.
  unfold Option.orElse.
  destruct (Option.isSome this) eqn:Hs.
  - exists this, w.
    split; [reflexivity|].
    split; [exact Hs|].
    split; [intros _; split; reflexivity | intro H; discriminate H].
  - exists alt, w1.
    split; [exact Hfn|].
    split; [reflexivity|].
    split; [intro H; discriminate H | intros _; split; reflexivity].
Qed.

Lemma orElse_presence_witness :
  ret (Option.Some (JsNumber 99)) tt = (Normal (Option.Some (JsNumber 99)), tt) /\
  exists o w',
    Option.orElse Option.None (ret (Option.Some (JsNumber 99))) tt
    = (Normal o, w') /\
    Option.isSome o
    = Option.isSome Option.None || Option.isSome (Option.Some (JsNumber 99)) /\
    (Option.isSome Option.None = true -> o = Option.None /\ w' = tt) /\
    (Option.isSome Option.None = false ->
     o = Option.Some (JsNumber 99) /\ w' = tt).
Proof.
  split; [reflexivity|].
  apply (orElse_presence unit Option.None (Option.Some (JsNumber 99))
           (ret (Option.Some (JsNumber 99))) tt tt).
  reflexivity.
Defined.

(** * Where exceptions come from *)

(** Apart from [unwrap], a method throws only what the function it runs
    throws: [unwrapOrElse] and [orElse] throw exactly when the receiver is
    None and the fallback throws, [map] exactly when the receiver holds a
    value and the mapped function throws on it, and [match] exactly when the
    branch it takes throws.  The thrown value and the world are those the
    function left. *)
Theorem throws_come_from_the_callbacks (W U : Type) (this : Option.t)
    (fn : Eff W JsValue) (mapFn : JsValue -> Eff W JsValue)
    (elseFn : Eff W Option.t)
    (someFn : JsValue -> Eff W U) (noneFn : Eff W U)
    (e : JsValue) (w w' : W) :
  (Option.unwrapOrElse this fn w = (Throw e, w')
   <-> Option.isSome this = false /\ fn w = (Throw e, w')) /\
  (Option.map this mapFn w = (Throw e, w')
   <-> Option.isSome this = true /\
       mapFn (Option.value this) w = (Throw e, w')) /\
  (Option.orElse this elseFn w = (Throw e, w')
   <-> Option.isSome this = false /\ elseFn w = (Throw e, w')) /\
  (Option.match_ this someFn noneFn w = (Throw e, w')
   <-> (Option.isSome this = true /\
        someFn (Option.value this) w = (Throw e, w')) \/
       (Option.isSome this = false /\ noneFn w = (Throw e, w'))).
Proof.
  unfold Option.unwrapOrElse, Option.map, Option.orElse, Option.match_.
  destruct (Option.isSome this).
  - split; [|split; [|split]].
    + split; [intro H; discriminate H | intros [H _]; discriminate H].
    + unfold bind.
      destruct (mapFn (Option.value this) w) as [[u | e1] w1]; simpl.
      * split; [intro H; discriminate H | intros [_ H]; discriminate H].
      * split.
        -- intro H. injection H as -> ->. split; reflexivity.
        -- intros [_ H]. injection H as -> ->. reflexivity.
    + split; [intro H; discriminate H | intros [H _]; discriminate H].
    + split; [intro H; left; split; [reflexivity | exact H]|].
      intros [[_ H] | [H _]]; [exact H | discriminate H].
  - split; [|split; [|split]].
    + split; [intro H; split; [reflexivity | exact H] | intros [_ H]; exact H].
    + split; [intro H; discriminate H | intros [H _]; discriminate H].
    + split; [intro H; split; [reflexivity | exact H] | intros [_ H]; exact H].
    + split; [intro H; right; split; [reflexivity | exact H]|].
      intros [[H _] | [_ H]]; [discriminate H | exact H].
Qed.

(** * The remaining cases of the test suite *)

Example test_map_Some :
  Option.map (Option.Some (JsNumber 42))
    (fun x => ret match x with JsNumber n => JsNumber (n + 1) | _ => x end) tt
  = (Normal (Option.Some (JsNumber 43)), tt).
Proof. reflexivity. Qed.

Example test_match :
  Option.match_ (Option.Some (JsNumber 42))
    (fun x => ret match x with JsNumber n => JsNumber (n + 1) | _ => x end)
    (ret (JsNumber 0)) tt
  = (Normal (JsNumber 43), tt) /\
  Option.match_ Option.None
    (fun x => ret match x with JsNumber n => JsNumber (n + 1) | _ => x end)
    (ret (JsNumber 0)) tt
  = (Normal (JsNumber 0), tt).
Proof. split; reflexivity. Qed.
